(** * easy_notifyer: the error-capture-and-dispatch pipeline

    A shallow embedding of [easy_notifyer/handlers.py] (the two reporter
    decorators, the filename generator, the report builder and the two
    dispatchers) and of the import statements of [easy_notifyer/__init__.py].

    Python values are modelled by small inductive types, keyword
    dictionaries by [gmap string py_value], exceptions by records carrying
    their class and message, and effectful code by a free monad [prog]
    whose operations are the calls that leave the module: the wrapped
    callable, the [Report] constructor, the Telegram clients and the clock.
    A [world] decides what every such call returns or raises; [run] executes
    a program in a world and records the calls in order. *)

From Stdlib Require Import Ascii String List ZArith Bool Lia.
From stdpp Require Import base option list strings pretty gmap.

Local Open Scope Z_scope.

(** ** Python values *)

Inductive py_value : Type :=
| PyNone
| PyBool (b : bool)
| PyInt (z : Z)
| PyStr (s : string).

#[global] Instance py_value_eq_dec : EqDecision py_value.
Proof. solve_decision. Defined.

(** Truth value testing, as used by [or]. *)
Definition py_truthy (v : py_value) : bool :=
  match v with
  | PyNone => false
  | PyBool b => b
  | PyInt z => negb (z =? 0)
  | PyStr s => negb (String.eqb s "")
  end.

(** ** Exception classes and exception objects *)

(** The part of the built-in hierarchy the package touches, and classes
    defined by user code with a single base class. *)
Inductive exc_class : Type :=
| BaseException
| Exception
| SystemExit
| KeyboardInterrupt
| GeneratorExit
| ImportError
| ModuleNotFoundError
| LookupError
| KeyError
| IndexError
| ValueError
| TypeError
| AttributeError
| RuntimeError
| UserException (name : string) (base : exc_class).

#[global] Instance exc_class_eq_dec : EqDecision exc_class.
Proof. solve_decision. Defined.

(** Method resolution order: the class followed by its ancestors. *)
Fixpoint mro (c : exc_class) : list exc_class :=
  c :: match c with
       | BaseException => []
       | Exception | SystemExit | KeyboardInterrupt | GeneratorExit =>
           [BaseException]
       | ImportError | LookupError | ValueError | TypeError | AttributeError
       | RuntimeError =>
           [Exception; BaseException]
       | ModuleNotFoundError => [ImportError; Exception; BaseException]
       | KeyError | IndexError => [LookupError; Exception; BaseException]
       | UserException _ base => mro base
       end.

Definition issubclass (c d : exc_class) : bool := bool_decide (d ∈ mro c).

Record exn : Type := { exc_type : exc_class; exc_msg : string }.

#[global] Instance exn_eq_dec : EqDecision exn.
Proof. solve_decision. Defined.

Definition isinstance (e : exn) (c : exc_class) : bool :=
  issubclass (exc_type e) c.

(** The [exceptions] argument of the decorators: a class, a tuple of
    classes, or any other value ([None] when the argument is left out). *)
Inductive exceptions_arg : Type :=
| ExcClass (c : exc_class)
| ExcTuple (cs : list exc_class)
| ExcOther (v : py_value).

Definition exceptions_truthy (a : exceptions_arg) : bool :=
  match a with
  | ExcClass _ => true
  | ExcTuple cs => negb (Nat.eqb (length cs) 0)
  | ExcOther v => py_truthy v
  end.

(** [a or b] *)
Definition py_or (a b : exceptions_arg) : exceptions_arg :=
  if exceptions_truthy a then a else b.

(** What an [except flt as exc] clause does with a propagating exception.
    A filter that is neither a class nor a tuple of classes makes the
    interpreter raise [TypeError] when the clause is tried. *)
Inductive except_result : Type := Caught | NotCaught | BadFilter.

Definition except_clause (flt : exceptions_arg) (e : exn) : except_result :=
  match flt with
  | ExcClass c => if isinstance e c then Caught else NotCaught
  | ExcTuple cs => if existsb (isinstance e) cs then Caught else NotCaught
  | ExcOther _ => BadFilter
  end.

Definition bad_filter_error : exn :=
  {| exc_type := TypeError;
     exc_msg :=
       "catching classes that do not inherit from BaseException is not allowed"
  |}.


(** ** Data passed through the pipeline *)

(** [datetime.datetime] *)
Record datetime : Type := {
  year : Z; month : Z; day : Z;
  hour : Z; minute : Z; second : Z;
  microsecond : Z
}.

(** [dt.replace(microsecond=us)] *)
Definition replace_microsecond (dt : datetime) (us : Z) : datetime :=
  {| year := year dt; month := month dt; day := day dt;
     hour := hour dt; minute := minute dt; second := second dt;
     microsecond := us |}.

(** The [chat_id] argument: one id or a list of ids. *)
Inductive chat_id_arg : Type :=
| ChatId (id : Z)
| ChatIds (ids : list Z).

(** The two client classes of [easy_notifyer.telegram]. *)
Inductive client_class : Type := Telegram | TelegramAsync.

(** A constructed client. *)
Record bot : Type := {
  bot_class : client_class;
  bot_token : string;
  bot_chat_id : list Z
}.

(** A call either runs in the calling thread or is awaited. *)
Inductive mode : Type := Blocking | Awaited.

(** A decorated callable: the name of its type and its [__name__]
    attribute.  Functions ([def], [async def], [lambda]) and classes have
    the attribute; a [functools.partial] object or an instance with a
    [__call__] method has none. *)
Record callable : Type := { type_name : string; __name__ : option string }.

(** What reading [func.__name__] raises when the attribute is missing. *)
Definition no_name_error (func : callable) : exn :=
  {| exc_type := AttributeError;
     exc_msg := "'" +:+ type_name func +:+
                "' object has no attribute '__name__'" |}.

(** What a call [fname(key=..., **extra)] raises when [extra] has the
    key [key] as well; [fname] is the function as the interpreter names
    it (with its module since Python 3.9). *)
Definition multiple_values_error (fname key : string) : exn :=
  {| exc_type := TypeError;
     exc_msg := fname +:+ "() got multiple values for keyword argument '" +:+
                key +:+ "'" |}.

(** The object built by [easy_notifyer.report.Report]: the handlers read
    its attributes [report] (the message body) and [attach]. *)
Record Report : Type := { report : string; attach : option string }.

Definition default_header : string := "Your program has crashed ☠️".

Definition newline : string := String (Ascii.ascii_of_nat 10) EmptyString.

(** First line of a report. *)
Definition header_line (header : option string) : string :=
  match header with
  | Some h => h
  | None => default_header
  end.

(** Function name line of a report (nothing when no name is given). *)
Definition func_name_line (func_name : option string) : string :=
  match func_name with
  | Some n => n +:+ newline
  | None => ""
  end.

(** Modelled from the spec: the constructor of the class [Report]
    (module [easy_notifyer.report], not among the sources).  Inline mode:
    header (or the default banner), a blank line, the function name line
    and the traceback text, no attachment.  Attached mode: header and
    function name line as a short caption, the full traceback as the
    attachment. *)
Definition Report_init (tback : string) (func_name header : option string)
    (as_attached : bool) : Report :=
  if as_attached then
    {| report := header_line header +:+ newline +:+ func_name_line func_name;
       attach := Some tback |}
  else
    {| report := header_line header +:+ newline +:+ newline +:+
                 func_name_line func_name +:+ tback;
       attach := None |}.

(** ** Programs *)

Inductive outcome (A : Type) : Type :=
| Return (a : A)
| Raise (e : exn).
Arguments Return {A} a.
Arguments Raise {A} e.

(** Calls that leave the module, indexed by the type of their result. *)
Inductive effect : Type -> Type :=
| Invoke (m : mode) (func : callable)
    (args : list py_value) (kwargs : gmap string py_value) : effect py_value
| NewReport (tback : string) (func_name header : option string)
    (as_attached : bool) : effect Report
| NewClient (cls : client_class)
    (token : option string) (chat_id : option chat_id_arg) : effect bot
| SendMessage (m : mode) (b : bot)
    (msg : string) (kwargs : gmap string py_value) : effect unit
| SendAttach (m : mode) (b : bot) (msg attach : string)
    (filename : py_value) (kwargs : gmap string py_value) : effect unit
| DatetimeNow : effect datetime
| RunSync : effect unit.

Inductive prog (A : Type) : Type :=
| Ret (a : A)
| Throw (e : exn)
| Vis {X : Type} (op : effect X) (k : outcome X -> prog A).
Arguments Ret {A} a.
Arguments Throw {A} e.
Arguments Vis {A X} op k.

(** Perform one call; an exception raised by it propagates. *)
Definition perform {X : Type} (op : effect X) : prog X :=
  Vis op (fun r => match r with Return x => Ret x | Raise e => Throw e end).

Fixpoint bind {A B : Type} (f : A -> prog B) (p : prog A) : prog B :=
  match p with
  | Ret a => f a
  | Throw e => Throw e
  | Vis op k => Vis op (fun r => bind f (k r))
  end.

#[global] Instance prog_ret : MRet prog := @Ret.
#[global] Instance prog_bind : MBind prog := @bind.

(** [try: body / except flt as exc: handler exc] *)
Fixpoint try_except {A : Type} (body : prog A) (flt : exceptions_arg)
    (handler : exn -> prog A) : prog A :=
  match body with
  | Ret a => Ret a
  | Throw e =>
      match except_clause flt e with
      | Caught => handler e
      | NotCaught => Throw e
      | BadFilter => Throw bad_filter_error
      end
  | Vis op k => Vis op (fun r => try_except (k r) flt handler)
  end.

(** ** Worlds and runs *)

(** What the collaborators do when called.  Building a report, reading
    the clock and handing work to the executor do not fail. *)
Record world : Type := {
  call : mode -> callable -> list py_value -> gmap string py_value ->
         outcome py_value;
  new_client : client_class -> option string -> option chat_id_arg ->
               outcome bot;
  send_message : mode -> bot -> string -> gmap string py_value ->
                 outcome unit;
  send_attach : mode -> bot -> string -> string -> py_value ->
                gmap string py_value -> outcome unit;
  now : datetime
}.

Definition respond (w : world) {X : Type} (op : effect X) : outcome X :=
  match op in effect T return outcome T with
  | Invoke m func args kwargs => call w m func args kwargs
  | NewReport tback func_name header as_attached =>
      Return (Report_init tback func_name header as_attached)
  | NewClient cls token chat_id => new_client w cls token chat_id
  | SendMessage m b msg kwargs => send_message w m b msg kwargs
  | SendAttach m b msg att filename kwargs =>
      send_attach w m b msg att filename kwargs
  | DatetimeNow => Return (now w)
  | RunSync => Return tt
  end.

(** A completed call with what it returned or raised. *)
Inductive event : Type :=
| Ev {X : Type} (op : effect X) (r : outcome X).

Fixpoint run {A : Type} (w : world) (p : prog A) (tr : list event)
    : outcome A * list event :=
  match p with
  | Ret a => (Return a, tr)
  | Throw e => (Raise e, tr)
  | Vis op k => run w (k (respond w op)) (tr ++ [Ev op (respond w op)])
  end.

(** ** Observing a run *)

(** The exception a completed call raised, if any. *)
Definition ev_raised (ev : event) : option exn :=
  match ev with
  | Ev _ (Raise e) => Some e
  | Ev _ (Return _) => None
  end.

(** The call is one of the two operations of the transport sink. *)
Definition is_sink_op (ev : event) : bool :=
  match ev with
  | Ev (SendMessage _ _ _ _) _ => true
  | Ev (SendAttach _ _ _ _ _ _) _ => true
  | Ev _ _ => false
  end.

Definition is_send_attach (ev : event) : bool :=
  match ev with
  | Ev (SendAttach _ _ _ _ _ _) _ => true
  | Ev _ _ => false
  end.

Definition is_send_message (ev : event) : bool :=
  match ev with
  | Ev (SendMessage _ _ _ _) _ => true
  | Ev _ _ => false
  end.

(** The call builds a report. *)
Definition is_report_op (ev : event) : bool :=
  match ev with
  | Ev (NewReport _ _ _ _) _ => true
  | Ev _ _ => false
  end.

(** The call constructs a client or uses one. *)
Definition is_transport_op (ev : event) : bool :=
  match ev with
  | Ev (NewClient _ _ _) _ => true
  | _ => is_sink_op ev
  end.

(** [body] contains [s] as a contiguous piece. *)
Definition contains (body s : string) : Prop :=
  exists pre post : string, body = pre +:+ s +:+ post.

(** What the caller of a decorated function observes when the wrapped
    function raised [e] and the dispatch attempt ended with [d]. *)
Definition after_dispatch {A : Type} (e : exn) (d : outcome unit) : outcome A :=
  match d with
  | Return _ => Raise e
  | Raise e' => Raise e'
  end.

(** The client class each variant constructs. *)
Definition client_of (m : mode) : client_class :=
  match m with
  | Blocking => Telegram
  | Awaited => TelegramAsync
  end.

(** The hand-over to the executor that precedes an offloaded step in the
    asynchronous variant. *)
Definition offloaded (m : mode) : list event :=
  match m with
  | Blocking => []
  | Awaited => [Ev RunSync (Return tt)]
  end.

(** Further observations on single calls. *)

#[global] Instance mode_eq_dec : EqDecision mode.
Proof. solve_decision. Defined.

#[global] Instance client_class_eq_dec : EqDecision client_class.
Proof. solve_decision. Defined.

(** The call is a call of the wrapped function. *)
Definition is_invoke (ev : event) : bool :=
  match ev with
  | Ev (Invoke _ _ _ _) _ => true
  | Ev _ _ => false
  end.

(** The call constructs a client. *)
Definition is_client_op (ev : event) : bool :=
  match ev with
  | Ev (NewClient _ _ _) _ => true
  | Ev _ _ => false
  end.

(** The call reads the clock. *)
Definition is_clock_op (ev : event) : bool :=
  match ev with
  | Ev DatetimeNow _ => true
  | Ev _ _ => false
  end.

(** The call hands work to the executor. *)
Definition is_offload (ev : event) : bool :=
  match ev with
  | Ev RunSync _ => true
  | Ev _ _ => false
  end.

(** The call belongs to the variant [m]: the wrapped function and the
    sink operations are called the way of [m], the client is of the class
    of [m], and only the awaited variant hands work to the executor. *)
Definition ev_fits (m : mode) (ev : event) : bool :=
  match ev with
  | Ev (Invoke m' _ _ _) _ => bool_decide (m' = m)
  | Ev (SendMessage m' _ _ _) _ => bool_decide (m' = m)
  | Ev (SendAttach m' _ _ _ _ _) _ => bool_decide (m' = m)
  | Ev (NewClient cls _ _) _ => bool_decide (cls = client_of m)
  | Ev RunSync _ => bool_decide (m = Awaited)
  | Ev _ _ => true
  end.

(** The keyword arguments a sink operation was given. *)
Definition ev_kwargs (ev : event) : option (gmap string py_value) :=
  match ev with
  | Ev (SendMessage _ _ _ kwargs) _ => Some kwargs
  | Ev (SendAttach _ _ _ _ _ kwargs) _ => Some kwargs
  | Ev _ _ => None
  end.

(** Every report construction and every clock reading in [tr] comes
    directly after a hand-over to the executor; [handed_over] tells
    whether the call before [tr] was one. *)
Fixpoint offload_guarded (handed_over : bool) (tr : list event) : bool :=
  match tr with
  | [] => true
  | ev :: rest =>
      (if is_report_op ev || is_clock_op ev then handed_over else true)
      && offload_guarded (is_offload ev) rest
  end.


(** ** Options of the decorators *)

(** Keyword arguments of the decorator factories; [params] holds the
    extra keyword arguments, those the factory does not name itself (so
    no [token], [chat_id], [exceptions], [header] or [as_attached] among
    them).  A call that unpacks them hands the callee a dictionary of its
    own, so the [pop] in the dispatchers never changes [params]. *)
Record options : Type := {
  token : option string;
  chat_id : option chat_id_arg;
  exceptions : exceptions_arg;
  header : option string;
  as_attached : bool;
  params : gmap string py_value
}.

(** ** The package's import statements *)

Module Package.

(** Top-level statements that bind names. *)
Inductive stmt : Type :=
| Import (module : string)
| FromImport (module : string) (names : list string)
| Bind (name : string).

(** [easy_notifyer/handlers.py] *)
Definition handlers_py : list stmt :=
  [ Import "functools";
    Import "traceback";
    FromImport "datetime" ["datetime"];
    FromImport "typing" ["List"; "Optional"; "Tuple"; "Type"; "Union"];
    FromImport "easy_notifyer.env" ["Env"];
    FromImport "easy_notifyer.report" ["Report"];
    FromImport "easy_notifyer.telegram" ["Telegram"; "TelegramAsync"];
    FromImport "easy_notifyer.utils" ["run_sync"];
    Bind "telegram_reporter";
    Bind "async_telegram_reporter";
    Bind "_get_filename";
    Bind "_report_maker";
    Bind "_report_handler";
    Bind "_async_report_handler" ].

(** [easy_notifyer/__init__.py] *)
Definition init_py : list stmt :=
  [ FromImport "easy_notifyer.handlers"
      ["mailer_reporter"; "telegram_reporter"];
    FromImport "easy_notifyer.mailer" ["Mailer"];
    FromImport "easy_notifyer.telegram" ["Telegram"; "TelegramAsync"];
    FromImport "easy_notifyer.exceptions" ["ConfigError"];
    Bind "__version__";
    Bind "__all__" ].

Definition no_module (module : string) : exn :=
  {| exc_type := ModuleNotFoundError;
     exc_msg := "No module named '" +:+ module +:+ "'" |}.

Definition cannot_import (name module : string) : exn :=
  {| exc_type := ImportError;
     exc_msg :=
       "cannot import name '" +:+ name +:+ "' from '" +:+ module +:+ "'" |}.

(** [from module import names] against the loaded module's names [ns]:
    the names are looked up in order and the first one missing raises. *)
Fixpoint import_names (module : string) (ns names : list string)
    : outcome (list string) :=
  match names with
  | [] => Return []
  | n :: rest =>
      if bool_decide (n ∈ ns) then
        match import_names module ns rest with
        | Return bound => Return (n :: bound)
        | Raise e => Raise e
        end
      else Raise (cannot_import n module)
  end.

(** Execute a module body; [load] imports another module and gives the
    names it binds.  The result lists the names bound, in order. *)
Fixpoint exec (load : string -> outcome (list string)) (body : list stmt)
    (bound : list string) : outcome (list string) :=
  match body with
  | [] => Return bound
  | Import module :: rest =>
      match load module with
      | Return _ => exec load rest (bound ++ [module])
      | Raise e => Raise e
      end
  | FromImport module names :: rest =>
      match load module with
      | Return ns =>
          match import_names module ns names with
          | Return ns' => exec load rest (bound ++ ns')
          | Raise e => Raise e
          end
      | Raise e => Raise e
      end
  | Bind name :: rest => exec load rest (bound ++ [name])
  end.

(** The names a module body binds when it runs to its end. *)
Definition binds (body : list stmt) : list string :=
  concat (map (fun st => match st with
                         | Import module => [module]
                         | FromImport _ names => names
                         | Bind name => [name]
                         end) body).

(** Modules whose source is not at hand (the standard library and the
    package's other modules) are given by [installed]: the names a
    module binds, or [None] when there is no such module. *)
Definition load_installed (installed : string -> option (list string))
    (module : string) : outcome (list string) :=
  match installed module with
  | Some ns => Return ns
  | None => Raise (no_module module)
  end.

Definition load (installed : string -> option (list string))
    (module : string) : outcome (list string) :=
  if String.eqb module "easy_notifyer.handlers"
  then exec (load_installed installed) handlers_py []
  else load_installed installed module.

(** [import easy_notifyer] *)
Definition import_package (installed : string -> option (list string))
    : outcome (list string) :=
  exec (load installed) init_py [].

(** An installation in which every module the package names exists and
    binds what is asked of it. *)
Definition complete_installation (module : string) : option (list string) :=
  Some ["datetime"; "List"; "Optional"; "Tuple"; "Type"; "Union"; "Env";
        "Report"; "Telegram"; "TelegramAsync"; "run_sync"; "Mailer";
        "ConfigError"].

End Package.

(** ** The setup script *)

Module Setup.

(** A dictionary literal of extras, in insertion order. *)
Definition EXTRAS : list (string * list string) :=
  [ ("telegram", ["httpx"]);
    ("dev", ["pytest"; "pylint"; "flake8"]) ].

Definition key_error (key : string) : exn :=
  {| exc_type := KeyError; exc_msg := "'" +:+ key +:+ "'" |}.

(** Subscription [d[key]]. *)
Fixpoint getitem (d : list (string * list string)) (key : string)
    : outcome (list string) :=
  match d with
  | [] => Raise (key_error key)
  | (k, v) :: rest => if String.eqb k key then Return v else getitem rest key
  end.

(** [list(chain.from_iterable(d.values()))] *)
Definition chain_values (d : list (string * list string)) : list string :=
  concat (map snd d).

(** The [extras_require] argument of [setup], built from the table of
    extras; the entries of the literal are evaluated in order. *)
Definition extras_require (extras : list (string * list string))
    : outcome (list (string * list string)) :=
  match getitem extras "telegram" with
  | Return telegram =>
      match getitem extras "dev" with
      | Return dev =>
          Return [ ("telegram", telegram);
                   ("dev", dev);
                   ("all", chain_values extras) ]
      | Raise e => Raise e
      end
  | Raise e => Raise e
  end.

End Setup.

(** ** Sample values for the examples *)

Definition class_name (c : exc_class) : string :=
  match c with
  | BaseException => "BaseException"
  | Exception => "Exception"
  | SystemExit => "SystemExit"
  | KeyboardInterrupt => "KeyboardInterrupt"
  | GeneratorExit => "GeneratorExit"
  | ImportError => "ImportError"
  | ModuleNotFoundError => "ModuleNotFoundError"
  | LookupError => "LookupError"
  | KeyError => "KeyError"
  | IndexError => "IndexError"
  | ValueError => "ValueError"
  | TypeError => "TypeError"
  | AttributeError => "AttributeError"
  | RuntimeError => "RuntimeError"
  | UserException name _ => name
  end.

(** The last line of a formatted traceback names the class and the
    message; the stack entries above it are left out here. *)
Definition format_exc_model (e : exn) : string :=
  "Traceback (most recent call last):" +:+ newline +:+
  class_name (exc_type e) +:+ ": " +:+ exc_msg e +:+ newline.

Definition two_digits (z : Z) : string :=
  if z <? 10 then "0" +:+ pretty z else pretty z.

(** The directives of the default pattern. *)
Definition directive (c : Ascii.ascii) (dt : datetime) : string :=
  if Ascii.eqb c "Y"%char then pretty (year dt)
  else if Ascii.eqb c "m"%char then two_digits (month dt)
  else if Ascii.eqb c "d"%char then two_digits (day dt)
  else if Ascii.eqb c "H"%char then two_digits (hour dt)
  else if Ascii.eqb c "M"%char then two_digits (minute dt)
  else if Ascii.eqb c "S"%char then two_digits (second dt)
  else String "%"%char (String c EmptyString).

Fixpoint strftime_model (dt : datetime) (fmt : string) : string :=
  match fmt with
  | EmptyString => EmptyString
  | String c rest =>
      if Ascii.eqb c "%"%char then
        match rest with
        | String d rest' => directive d dt +:+ strftime_model dt rest'
        | EmptyString => "%"
        end
      else String c (strftime_model dt rest)
  end.

Definition default_dt_format : string := "%Y-%m-%d %H_%M_%S".

Definition a_moment : datetime :=
  {| year := 2021; month := 3; day := 4;
     hour := 5; minute := 6; second := 7; microsecond := 123456 |}.

Definition boom : exn := {| exc_type := ValueError; exc_msg := "boom" |}.

Definition exit_1 : exn := {| exc_type := SystemExit; exc_msg := "1" |}.

Definition config_error : exn :=
  {| exc_type := UserException "ConfigError" Exception;
     exc_msg := "token is not set" |}.

Definition transport_error : exn :=
  {| exc_type := RuntimeError; exc_msg := "sendMessage: request failed" |}.

Definition a_bot (cls : client_class) : bot :=
  {| bot_class := cls; bot_token := "123:abc"; bot_chat_id := [42] |}.

(** A world fixed by what the wrapped function, the client constructor
    and the sink operations do. *)
Definition mk_world (f : outcome py_value)
    (client : client_class -> outcome bot) (sent : outcome unit) : world :=
  {| call := fun _ _ _ _ => f;
     new_client := fun cls _ _ => client cls;
     send_message := fun _ _ _ _ => sent;
     send_attach := fun _ _ _ _ _ _ => sent;
     now := a_moment |}.

Definition default_options : options :=
  {| token := None; chat_id := None; exceptions := ExcOther PyNone;
     header := None; as_attached := false; params := ∅ |}.

Definition with_exceptions (a : exceptions_arg) (o : options) : options :=
  {| token := token o; chat_id := chat_id o; exceptions := a;
     header := header o; as_attached := as_attached o; params := params o |}.

(** [def f(): ...] *)
Definition func_f : callable :=
  {| type_name := "function"; __name__ := Some "f" |}.

(** [functools.partial(f)] *)
Definition partial_f : callable :=
  {| type_name := "functools.partial"; __name__ := None |}.

(** Extra keyword arguments that name the dispatcher's own [report]. *)
Definition with_report_key (o : options) : options :=
  {| token := token o; chat_id := chat_id o; exceptions := exceptions o;
     header := header o; as_attached := as_attached o;
     params := <["report" := PyStr "weekly"]> (params o) |}.

(** Worlds in which the wrapped function raises [ValueError("boom")]:
    one where the dispatch goes through, one without credentials, one
    where the sink fails. *)
Definition world_ok : world :=
  mk_world (Raise boom) (fun cls => Return (a_bot cls)) (Return tt).

Definition world_no_token : world :=
  mk_world (Raise boom) (fun _ => Raise config_error) (Return tt).

Definition world_sink_down : world :=
  mk_world (Raise boom) (fun cls => Return (a_bot cls)) (Raise transport_error).

(** A world in which the wrapped function calls [sys.exit(1)]. *)
Definition world_exit : world :=
  mk_world (Raise exit_1) (fun cls => Return (a_bot cls)) (Return tt).

(** A world in which the wrapped function returns 7. *)
Definition world_returns : world :=
  mk_world (Return (PyInt 7)) (fun cls => Return (a_bot cls)) (Return tt).

(** ** The handlers module *)

Section Handlers.

(** Library functions and configuration the module reads. *)
Variable format_exc : exn -> string.            (* traceback.format_exc() *)
Variable strftime : datetime -> string -> string.
Variable EASY_NOTIFYER_FILENAME_DT_FORMAT : string.  (* attribute of Env *)

(** Modelled from the spec: [run_sync] (module [easy_notifyer.utils],
    not among the sources) hands a blocking function to an execution
    facility outside the event loop; awaiting it yields that function's
    result. *)
Definition run_sync {A : Type} (f : prog A) : prog A :=
  perform RunSync ;; f.

Definition _get_filename (filename : py_value) : prog py_value :=
  match filename with
  | PyNone =>
      dt ← perform DatetimeNow;
      let date :=
        strftime (replace_microsecond dt 0) EASY_NOTIFYER_FILENAME_DT_FORMAT in
      mret (PyStr (date +:+ ".txt"))
  | _ => mret filename
  end.

Definition _report_maker (tback : string) (func_name header : option string)
    (as_attached : bool) : prog Report :=
  perform (NewReport tback func_name header as_attached).

Definition _report_handler (r : Report) (token : option string)
    (chat_id : option chat_id_arg) (kwargs : gmap string py_value)
    : prog unit :=
  b ← perform (NewClient Telegram token chat_id);
  match attach r with
  | Some att =>
      filename ← _get_filename (default PyNone (kwargs !! "filename"));
      perform (SendAttach Blocking b (report r) att filename
                 (delete "filename" kwargs))
  | None => perform (SendMessage Blocking b (report r) kwargs)
  end.

Definition _async_report_handler (r : Report) (token : option string)
    (chat_id : option chat_id_arg) (kwargs : gmap string py_value)
    : prog unit :=
  b ← perform (NewClient TelegramAsync token chat_id);
  match attach r with
  | Some att =>
      filename ← run_sync
        (_get_filename (default PyNone (kwargs !! "filename")));
      perform (SendAttach Awaited b (report r) att filename
                 (delete "filename" kwargs))
  | None => perform (SendMessage Awaited b (report r) kwargs)
  end.

(** Reading [func.__name__]. *)
Definition get_name (func : callable) : prog string :=
  match __name__ func with
  | Some name => mret name
  | None => Throw (no_name_error func)
  end.

(** A call that passes [report], [token] and [chat_id] by keyword and
    unpacks [extra] after them: when [extra] has the key [report] the
    call raises before the body of [fname] is entered.  ([extra] never
    has the keys [token] and [chat_id], see [options].) *)
Definition call_with_keywords {A : Type} (fname : string)
    (extra : gmap string py_value) (body : prog A) : prog A :=
  match extra !! "report" with
  | Some _ => Throw (multiple_values_error fname "report")
  | None => body
  end.

(** A call of the function decorated by [telegram_reporter] with the
    options [o], on the arguments [args] and [kwargs]. *)
Definition telegram_reporter (o : options) (func : callable)
    (args : list py_value) (kwargs : gmap string py_value)
    : prog py_value :=
  let exceptions := py_or (exceptions o) (ExcClass Exception) in
  try_except (perform (Invoke Blocking func args kwargs)) exceptions
    (fun exc =>
       func_name ← get_name func;
       let tback := format_exc exc in
       r ← _report_maker tback (Some func_name) (header o) (as_attached o);
       call_with_keywords "easy_notifyer.handlers._report_handler" (params o)
         (_report_handler r (token o) (chat_id o) (params o));;
       Throw exc).

(** An awaited call of the function decorated by
    [async_telegram_reporter] with the options [o]. *)
Definition async_telegram_reporter (o : options) (func : callable)
    (args : list py_value) (kwargs : gmap string py_value)
    : prog py_value :=
  let exceptions := py_or (exceptions o) (ExcClass Exception) in
  try_except (perform (Invoke Awaited func args kwargs)) exceptions
    (fun exc =>
       func_name ← get_name func;
       let tback := format_exc exc in
       r ← run_sync
             (_report_maker tback (Some func_name) (header o) (as_attached o));
       call_with_keywords "easy_notifyer.handlers._async_report_handler"
         (params o)
         (_async_report_handler r (token o) (chat_id o) (params o));;
       Throw exc).

(** The two variants, selected by the way they call. *)
Definition decorated (m : mode) : options -> callable -> list py_value ->
    gmap string py_value -> prog py_value :=
  match m with
  | Blocking => telegram_reporter
  | Awaited => async_telegram_reporter
  end.

Definition dispatcher (m : mode) : Report -> option string ->
    option chat_id_arg -> gmap string py_value -> prog unit :=
  match m with
  | Blocking => _report_handler
  | Awaited => _async_report_handler
  end.

(** The dispatcher of each variant as the interpreter names it. *)
Definition dispatcher_name (m : mode) : string :=
  match m with
  | Blocking => "easy_notifyer.handlers._report_handler"
  | Awaited => "easy_notifyer.handlers._async_report_handler"
  end.

(** The file name handed to the sink: the [filename] keyword argument
    when given (and not [None]), else the name made from the clock. *)
Definition resolved_filename (w : world) (kwargs : gmap string py_value)
    : py_value :=
  match default PyNone (kwargs !! "filename") with
  | PyNone =>
      PyStr (strftime (replace_microsecond (now w) 0)
               EASY_NOTIFYER_FILENAME_DT_FORMAT +:+ ".txt")
  | v => v
  end.

(** The events of resolving the file name. *)
Definition filename_events (m : mode) (w : world)
    (kwargs : gmap string py_value) : list event :=
  match default PyNone (kwargs !! "filename") with
  | PyNone => offloaded m ++ [Ev DatetimeNow (Return (now w))]
  | _ => offloaded m
  end.

(** The one sink operation a dispatch of [r] through the client [b]
    performs. *)
Definition sink_call (m : mode) (w : world) (b : bot) (r : Report)
    (kwargs : gmap string py_value) : event :=
  match attach r with
  | Some att =>
      let filename := resolved_filename w kwargs in
      let kwargs' := delete "filename" kwargs in
      Ev (SendAttach m b (report r) att filename kwargs')
         (send_attach w m b (report r) att filename kwargs')
  | None =>
      Ev (SendMessage m b (report r) kwargs)
         (send_message w m b (report r) kwargs)
  end.

(** What that sink operation returns or raises. *)
Definition sink_result (m : mode) (w : world) (b : bot) (r : Report)
    (kwargs : gmap string py_value) : outcome unit :=
  match attach r with
  | Some att =>
      send_attach w m b (report r) att (resolved_filename w kwargs)
        (delete "filename" kwargs)
  | None => send_message w m b (report r) kwargs
  end.

(** The events between the construction of the client and the sink
    operation. *)
Definition before_sink (m : mode) (w : world) (r : Report)
    (kwargs : gmap string py_value) : list event :=
  match attach r with
  | Some _ => filename_events m w kwargs
  | None => []
  end.

(** * Properties *)

(** ** The exception hierarchy *)

Example issubclass_KeyError_Exception : issubclass KeyError Exception = true.
Proof. reflexivity. Qed.

Example issubclass_SystemExit_Exception :
  issubclass SystemExit Exception = false.
Proof. reflexivity. Qed.

Example issubclass_ConfigError_LookupError :
  issubclass (UserException "ConfigError" Exception) LookupError = false.
Proof. vm_compute. reflexivity. Qed.

Lemma issubclass_refl (c : exc_class) : issubclass c c = true.
Proof.
  unfold issubclass. apply bool_decide_eq_true.
  destruct c; simpl; apply list_elem_of_here.
Qed.

(** ** Running programs *)

Lemma run_perform {X : Type} (w : world) (op : effect X) (tr : list event) :
  run w (perform op) tr = (respond w op, tr ++ [Ev op (respond w op)]).
Proof. unfold perform. simpl. destruct (respond w op); reflexivity. Qed.

Lemma run_bind {A B : Type} (w : world) (p : prog A) (g : A -> prog B)
    (tr : list event) :
  run w (p ≫= g) tr =
  match run w p tr with
  | (Return a, tr') => run w (g a) tr'
  | (Raise e, tr') => (Raise e, tr')
  end.
Proof.
  revert tr. induction p as [a | e | X op k IH]; intros tr.
  - reflexivity.
  - reflexivity.
  - simpl. apply IH.
Qed.

Lemma run_try_except {A : Type} (w : world) (body : prog A)
    (flt : exceptions_arg) (h : exn -> prog A) (tr : list event) :
  run w (try_except body flt h) tr =
  match run w body tr with
  | (Return a, tr') => (Return a, tr')
  | (Raise e, tr') =>
      match except_clause flt e with
      | Caught => run w (h e) tr'
      | NotCaught => (Raise e, tr')
      | BadFilter => (Raise bad_filter_error, tr')
      end
  end.
Proof.
  revert tr. induction body as [a | e | X op k IH]; intros tr.
  - reflexivity.
  - simpl. destruct (except_clause flt e); reflexivity.
  - simpl. apply IH.
Qed.

(** A run only appends to the record of calls, and what it appends does
    not depend on what was recorded before. *)
Lemma run_app {A : Type} (w : world) (p : prog A) (tr : list event) :
  run w p tr = (fst (run w p []), tr ++ snd (run w p [])).
Proof.
  revert tr. induction p as [a | e | X op k IH]; intros tr.
  - simpl. now rewrite app_nil_r.
  - simpl. now rewrite app_nil_r.
  - simpl. rewrite IH. rewrite (IH _ [Ev op (respond w op)]).
    simpl. now rewrite <- app_assoc.
Qed.

(** The decorated function begins by calling the wrapped one.  When the
    exception is caught, it reads the name of the wrapped callable, builds
    the report, binds the keyword arguments of the dispatcher and runs it;
    each of these steps may end the run. *)
Lemma run_decorated (m : mode) (w : world) (o : options) (func : callable)
    (args : list py_value) (kwargs : gmap string py_value) :
  run w (decorated m o func args kwargs) [] =
  let call_ev := Ev (Invoke m func args kwargs) (call w m func args kwargs) in
  match call w m func args kwargs with
  | Return v => (Return v, [call_ev])
  | Raise e =>
      match except_clause (py_or (exceptions o) (ExcClass Exception)) e with
      | Caught =>
          match __name__ func with
          | Some name =>
              let r := Report_init (format_exc e) (Some name)
                         (header o) (as_attached o) in
              let report_ev :=
                Ev (NewReport (format_exc e) (Some name)
                      (header o) (as_attached o)) (Return r) in
              match params o !! "report" with
              | Some _ =>
                  (Raise (multiple_values_error (dispatcher_name m) "report"),
                   call_ev :: offloaded m ++ [report_ev])
              | None =>
                  let d :=
                    run w (dispatcher m r (token o) (chat_id o) (params o)) []
                  in
                  (after_dispatch e (fst d),
                   call_ev :: offloaded m ++ report_ev :: snd d)
              end
          | None => (Raise (no_name_error func), [call_ev])
          end
      | NotCaught => (Raise e, [call_ev])
      | BadFilter => (Raise bad_filter_error, [call_ev])
      end
  end.
Proof.
  destruct m; unfold decorated, dispatcher, dispatcher_name, offloaded,
    telegram_reporter, async_telegram_reporter;
    rewrite run_try_except, run_perform; cbn [respond app];
    destruct (call w _ func args kwargs) as [v | e]; try reflexivity;
    destruct (except_clause _ e); try reflexivity;
    unfold get_name; destruct (__name__ func) as [name |];
    try reflexivity.
  - cbn [mbind prog_bind bind mret prog_ret].
    rewrite run_bind. unfold _report_maker. rewrite run_perform.
    cbn [respond]. rewrite run_bind. unfold call_with_keywords.
    destruct (params o !! "report"); [reflexivity |].
    rewrite run_app.
    destruct (run w (_report_handler _ _ _ _) []) as [[[] | d] tr];
      reflexivity.
  - cbn [mbind prog_bind bind mret prog_ret].
    rewrite run_bind. unfold run_sync, _report_maker.
    rewrite run_bind, run_perform. cbn [respond]. rewrite run_perform.
    cbn [respond]. rewrite run_bind. unfold call_with_keywords.
    destruct (params o !! "report"); [reflexivity |].
    rewrite run_app.
    destruct (run w (_async_report_handler _ _ _ _) []) as [[[] | d] tr];
      reflexivity.
Qed.

(** [_get_filename] returns an explicit name as it is, without reading the
    clock; given [None] it reads the clock once. *)
Lemma run_get_filename (w : world) (filename : py_value) :
  run w (_get_filename filename) [] =
  match filename with
  | PyNone =>
      (Return (PyStr (strftime (replace_microsecond (now w) 0)
                        EASY_NOTIFYER_FILENAME_DT_FORMAT +:+ ".txt")),
       [Ev DatetimeNow (Return (now w))])
  | v => (Return v, [])
  end.
Proof. destruct filename; reflexivity. Qed.

(** The dispatchers construct a client and, when that succeeds, perform
    one sink operation. *)
Lemma run_dispatcher (m : mode) (w : world) (r : Report)
    (tok : option string) (chat : option chat_id_arg)
    (kwargs : gmap string py_value) :
  run w (dispatcher m r tok chat kwargs) [] =
  let c := Ev (NewClient (client_of m) tok chat)
              (new_client w (client_of m) tok chat) in
  match new_client w (client_of m) tok chat with
  | Return b =>
      (sink_result m w b r kwargs,
       c :: before_sink m w r kwargs ++ [sink_call m w b r kwargs])
  | Raise d => (Raise d, [c])
  end.
Proof.
  unfold sink_result, sink_call, before_sink, filename_events,
    resolved_filename.
  destruct m; unfold dispatcher, client_of, offloaded,
    _report_handler, _async_report_handler;
    rewrite run_bind, run_perform; cbn [respond app];
    destruct (new_client w _ tok chat) as [b | d]; try reflexivity;
    destruct (attach r) as [att |]; try (rewrite run_perform; reflexivity).
  - rewrite run_bind, run_app, run_get_filename.
    destruct (default PyNone (kwargs !! "filename"));
      cbn [fst snd app]; rewrite run_perform; reflexivity.
  - unfold run_sync. rewrite !run_bind, run_perform. cbn [respond app].
    rewrite run_app, run_get_filename.
    destruct (default PyNone (kwargs !! "filename"));
      cbn [fst snd app]; rewrite run_perform; reflexivity.
Qed.

Lemma is_sink_op_sink_call (m : mode) (w : world) (b : bot) (r : Report)
    (kwargs : gmap string py_value) :
  is_sink_op (sink_call m w b r kwargs) = true.
Proof. unfold sink_call. destruct (attach r); reflexivity. Qed.

Lemma ev_raised_sink_call (m : mode) (w : world) (b : bot) (r : Report)
    (kwargs : gmap string py_value) :
  ev_raised (sink_call m w b r kwargs) =
  match sink_result m w b r kwargs with
  | Return _ => None
  | Raise d => Some d
  end.
Proof.
  unfold sink_call, sink_result. destruct (attach r) as [att |]; cbn.
  - destruct (send_attach w m b (report r) att _ _); reflexivity.
  - destruct (send_message w m b (report r) kwargs); reflexivity.
Qed.

(** ** Strings *)

Lemma length_append (a b : string) :
  String.length (a +:+ b) = (String.length a + String.length b)%nat.
Proof.
  induction a as [| c a IH]; [reflexivity |].
  change (String c a +:+ b) with (String c (a +:+ b)).
  simpl. now rewrite IH.
Qed.



Lemma contains_length (body s : string) :
  contains body s -> (String.length s <= String.length body)%nat.
Proof.
  intros (pre & post & ->). rewrite !length_append. lia.
Qed.

(** ** The decorators *)

(** C8: when the wrapped function returns a value, the decorated function
    (blocking or awaited variant) returns that same value, and the call of
    the wrapped function is the only call of the run: no report is built,
    no client is constructed and no sink operation is performed. *)
Theorem decorated_returns_value (m : mode) (w : world) (o : options)
    (func : callable) (args : list py_value) (kwargs : gmap string py_value)
    (v : py_value) :
  call w m func args kwargs = Return v ->
  run w (decorated m o func args kwargs) [] =
    (Return v, [Ev (Invoke m func args kwargs) (Return v)])
  /\ Forall (fun ev => is_report_op ev = false /\ is_transport_op ev = false)
       (snd (run w (decorated m o func args kwargs) [])).
Proof.
  intros Hcall. rewrite run_decorated, Hcall. cbn [snd].
  split; [reflexivity |]. repeat constructor.
Qed.

(** C2: when the wrapped function raises an exception that the except
    clause of the decorator does not catch, the decorated function (either
    variant) raises that exception, and the call of the wrapped function is
    the only call of the run: no report is built and no transport call is
    made. *)
Theorem decorated_passes_unmatched (m : mode) (w : world) (o : options)
    (func : callable) (args : list py_value) (kwargs : gmap string py_value)
    (e : exn) :
  call w m func args kwargs = Raise e ->
  except_clause (py_or (exceptions o) (ExcClass Exception)) e = NotCaught ->
  run w (decorated m o func args kwargs) [] =
    (Raise e, [Ev (Invoke m func args kwargs) (Raise e)])
  /\ Forall (fun ev => is_report_op ev = false /\ is_transport_op ev = false)
       (snd (run w (decorated m o func args kwargs) [])).
Proof.
  intros Hcall Hflt. rewrite run_decorated, Hcall. cbn zeta. rewrite Hflt.
  cbn [snd]. split; [reflexivity |]. repeat constructor.
Qed.



(** C4: in the awaited variant, when the wrapped function raises an
    exception [e] that the except clause catches, [e] is raised again only
    at the end of a dispatch that ran to its end: the run then ends with
    the awaited sink operation, which returned, after the report was
    built.  In every other run the attempt was cut short and the exception
    that cut it is raised instead: the last call of the run is the client
    constructor or the sink operation and raised [d]; or, before any
    transport call, reading [__name__] raised [AttributeError] or binding
    the keyword arguments of the dispatcher raised [TypeError]. *)
Theorem async_reraise_follows_dispatch (w : world) (o : options)
    (func : callable) (args : list py_value) (kwargs : gmap string py_value)
    (e : exn) :
  call w Awaited func args kwargs = Raise e ->
  except_clause (py_or (exceptions o) (ExcClass Exception)) e = Caught ->
  let result := run w (async_telegram_reporter o func args kwargs) [] in
  let call_ev := Ev (Invoke Awaited func args kwargs) (Raise e) in
  match __name__ func with
  | Some name =>
      let r := Report_init (format_exc e) (Some name)
                 (header o) (as_attached o) in
      let report_ev :=
        Ev (NewReport (format_exc e) (Some name)
              (header o) (as_attached o)) (Return r) in
      match params o !! "report" with
      | None =>
          exists (before : list event) (last_call : event),
            snd result = before ++ [last_call]
            /\ Exists (fun ev => is_report_op ev = true) before
            /\ is_transport_op last_call = true
            /\ match ev_raised last_call with
               | None =>
                   (exists b : bot,
                      new_client w TelegramAsync (token o) (chat_id o)
                      = Return b
                      /\ last_call = sink_call Awaited w b r (params o))
                   /\ is_sink_op last_call = true
                   /\ fst result = Raise e
               | Some d => fst result = Raise d
               end
      | Some _ =>
          result =
            (Raise (multiple_values_error
                      "easy_notifyer.handlers._async_report_handler" "report"),
             [call_ev; Ev RunSync (Return tt); report_ev])
      end
  | None => result = (Raise (no_name_error func), [call_ev])
  end.
Proof.
  intros Hcall Hflt result call_ev. subst result call_ev.
  change (async_telegram_reporter o func args kwargs)
    with (decorated Awaited o func args kwargs).
  rewrite run_decorated, Hcall. cbn zeta. rewrite Hflt.
  destruct (__name__ func) as [name |]; [| reflexivity].
  destruct (params o !! "report"); [reflexivity |].
  rewrite run_dispatcher. cbn zeta. cbn [client_of offloaded].
  set (r := Report_init (format_exc e) (Some name) (header o) (as_attached o)).
  destruct (new_client w TelegramAsync (token o) (chat_id o)) as [b | d]
    eqn:Hclient.
  - eexists (_ :: _ :: _ :: _ :: before_sink Awaited w r (params o)), _.
    split; [cbn [fst snd app]; reflexivity |].
    split; [right; right; left; reflexivity |].
    split.
    { pose proof (is_sink_op_sink_call Awaited w b r (params o)) as Hs.
      unfold is_transport_op.
      destruct (sink_call Awaited w b r (params o)) as [X op res].
      destruct op; first [reflexivity | exact Hs]. }
    cbn [fst]. rewrite ev_raised_sink_call.
    destruct (sink_result Awaited w b r (params o)) as [[] | d];
      [| reflexivity].
    split; [exists b; split; reflexivity |].
    split; [apply is_sink_op_sink_call | reflexivity].
  - eexists [_; _; _], _.
    split; [cbn [fst snd app]; reflexivity |].
    split; [right; right; left; reflexivity |].
    split; reflexivity.
Qed.

(** ** The dispatchers *)

Lemma before_sink_no_sink_op (m : mode) (w : world) (r : Report)
    (kwargs : gmap string py_value) :
  List.filter is_sink_op (before_sink m w r kwargs) = [].
Proof.
  unfold before_sink, filename_events.
  destruct (attach r); [| reflexivity].
  destruct (default PyNone (kwargs !! "filename")); destruct m; reflexivity.
Qed.

(** C6 (amended): a dispatch whose client is constructed performs exactly
    one sink operation.  For a report with an attachment it is the send
    with attachment, given the body as caption, the attachment, the
    resolved file name and the remaining keyword arguments; for a report
    without one it is the send of the body as text. *)
Theorem dispatch_performs_one_sink_operation (m : mode) (w : world)
    (r : Report) (tok : option string) (chat : option chat_id_arg)
    (kwargs : gmap string py_value) (b : bot) :
  new_client w (client_of m) tok chat = Return b ->
  List.filter is_sink_op (snd (run w (dispatcher m r tok chat kwargs) [])) =
    [ match attach r with
      | Some att =>
          Ev (SendAttach m b (report r) att (resolved_filename w kwargs)
                (delete "filename" kwargs))
             (send_attach w m b (report r) att (resolved_filename w kwargs)
                (delete "filename" kwargs))
      | None =>
          Ev (SendMessage m b (report r) kwargs)
             (send_message w m b (report r) kwargs)
      end ]
  /\ (Exists (fun ev => is_send_attach ev = true)
        (snd (run w (dispatcher m r tok chat kwargs) []))
      <-> attach r <> None)
  /\ (Exists (fun ev => is_send_message ev = true)
        (snd (run w (dispatcher m r tok chat kwargs) []))
      <-> attach r = None)
  /\ delete "filename" kwargs !! "filename" = None.
Proof.
  intros Hclient. rewrite run_dispatcher, Hclient. cbn [snd].
  split; [| split; [| split]].
  - cbn [List.filter is_sink_op]. rewrite List.filter_app.
    rewrite before_sink_no_sink_op. cbn [List.filter app].
    rewrite is_sink_op_sink_call. unfold sink_call.
    destruct (attach r); reflexivity.
  - rewrite Exists_cons, Exists_app, Exists_cons, Exists_nil.
    unfold sink_call, before_sink, filename_events.
    destruct (attach r) as [att |].
    + split; [discriminate |]. intros _. right. right. left. reflexivity.
    + split; [| congruence].
      cbn. rewrite Exists_nil. intros [? | [[] | [? | []]]]; discriminate.
  - rewrite Exists_cons, Exists_app, Exists_cons, Exists_nil.
    unfold sink_call, before_sink, filename_events.
    destruct (attach r) as [att |].
    + split; [| discriminate].
      intros [? | [Hev | [? | []]]]; try discriminate.
      exfalso. revert Hev.
      destruct (default PyNone (kwargs !! "filename")); destruct m; cbn;
        rewrite ?Exists_cons, ?Exists_nil; intuition discriminate.
    + split; [reflexivity |]. intros _. right. right. left. reflexivity.
  - apply lookup_delete_eq.
Qed.

(** C7: given an explicit name, [_get_filename] returns it unchanged and
    does not read the clock; given [None], it reads the clock once and
    returns the time, with the microsecond set to zero and the other
    components kept, formatted by the configured pattern and followed by
    [.txt]. *)
Theorem get_filename_spec (w : world) (filename : py_value) :
  run w (_get_filename filename) [] =
    match filename with
    | PyNone =>
        (Return (PyStr (strftime (replace_microsecond (now w) 0)
                          EASY_NOTIFYER_FILENAME_DT_FORMAT +:+ ".txt")),
         [Ev DatetimeNow (Return (now w))])
    | name => (Return name, [])
    end
  /\ microsecond (replace_microsecond (now w) 0) = 0
  /\ replace_microsecond (now w) (microsecond (now w)) = now w.
Proof.
  split; [apply run_get_filename |].
  split; [reflexivity |]. destruct (now w); reflexivity.
Qed.

(** ** The report builder *)


Lemma contains_middle (a s b : string) : contains (a +:+ s +:+ b) s.
Proof. exists a, b. reflexivity. Qed.



(** ** The filter *)

(** C9: when the [exceptions] argument is falsy (an empty tuple, [None],
    or any other falsy value), each decorator behaves exactly as if it had
    been given the class [Exception]; and whatever the argument, there is an
    exception that the except clause of the decorator does not let pass: no
    argument makes a filter that matches nothing. *)
Theorem falsy_exceptions_mean_Exception (o : options) :
  (exceptions_truthy (exceptions o) = false ->
   forall (m : mode) (func : callable) (args : list py_value)
          (kwargs : gmap string py_value),
     decorated m o func args kwargs =
     decorated m (with_exceptions (ExcClass Exception) o) func args kwargs)
  /\ (exists e : exn,
        except_clause (py_or (exceptions o) (ExcClass Exception)) e
        <> NotCaught).
Proof.
  split.
  - intros Hfalsy m func args kwargs.
    destruct m; unfold decorated, telegram_reporter, async_telegram_reporter,
      py_or; rewrite Hfalsy; reflexivity.
  - unfold py_or. destruct (exceptions o) as [c | [| c cs] | v]; cbn.
    + exists {| exc_type := c; exc_msg := "" |}.
      unfold isinstance. cbn. now rewrite issubclass_refl.
    + exists {| exc_type := Exception; exc_msg := "" |}. discriminate.
    + exists {| exc_type := c; exc_msg := "" |}.
      unfold isinstance. cbn. now rewrite issubclass_refl.
    + exists {| exc_type := Exception; exc_msg := "" |}.
      destruct (py_truthy v); discriminate.
Qed.

(** ** Further properties of the decorators *)

(** Case analysis of a run of a decorated function: what the wrapped
    function does, what the except clause does, whether the callable has a
    name, whether the extra keyword arguments have the key [report],
    whether the client is constructed, and which way the dispatcher
    goes. *)
Ltac run_cases m w :=
  rewrite run_decorated; cbn zeta;
  destruct (call w m _ _ _) as [? | ?e];
    [| destruct (except_clause _ _);
       [ destruct (__name__ _) as [?name |];
           [ destruct (params _ !! "report");
               [| rewrite run_dispatcher; cbn zeta;
                  destruct (new_client w _ _ _) as [? | ?];
                    [ unfold sink_call, sink_result, before_sink,
                        filename_events, resolved_filename;
                      destruct (attach _) as [? |];
                        [ destruct (default PyNone _) |] |]] |] | |]];
  destruct m; cbn [fst snd app offloaded client_of].

(** X1: whatever happens afterwards, a decorated function (either
    variant) calls the wrapped function first, with the arguments it was
    given, and never calls it a second time. *)
Theorem decorated_calls_wrapped_once (m : mode) (w : world) (o : options)
    (func : callable) (args : list py_value) (kwargs : gmap string py_value) :
  exists rest : list event,
    snd (run w (decorated m o func args kwargs) []) =
      Ev (Invoke m func args kwargs) (call w m func args kwargs) :: rest
    /\ List.filter is_invoke rest = [].
Proof.
  run_cases m w; eexists; (split; [reflexivity |]); reflexivity.
Qed.

(** X2: when the [exceptions] argument is a truthy value that is neither
    a class nor a tuple of classes, every exception raised by the wrapped
    function is replaced by the interpreter's [TypeError] for an invalid
    except clause; no report is built and nothing is sent. *)
Theorem bad_filter_raises_TypeError (m : mode) (w : world) (o : options)
    (func : callable) (args : list py_value) (kwargs : gmap string py_value)
    (v : py_value) (e : exn) :
  exceptions o = ExcOther v ->
  py_truthy v = true ->
  call w m func args kwargs = Raise e ->
  run w (decorated m o func args kwargs) [] =
    (Raise bad_filter_error, [Ev (Invoke m func args kwargs) (Raise e)]).
Proof.
  intros Hexc Htruthy Hcall.
  rewrite run_decorated, Hcall, Hexc. cbn zeta.
  unfold py_or. cbn [exceptions_truthy]. rewrite Htruthy. reflexivity.
Qed.

(** X3: the calls of a run belong to the variant that makes them.  The
    blocking variant calls the wrapped function and the sink in the calling
    thread, constructs a [Telegram] client and never hands work to the
    executor; the awaited variant awaits the wrapped function and the sink
    and constructs a [TelegramAsync] client. *)
Theorem decorated_keeps_to_its_variant (m : mode) (w : world) (o : options)
    (func : callable) (args : list py_value) (kwargs : gmap string py_value) :
  Forall (fun ev => ev_fits m ev = true)
    (snd (run w (decorated m o func args kwargs) [])).
Proof.
  run_cases m w; repeat (constructor; [reflexivity |]); constructor.
Qed.

(** X4: a crash is reported at most once.  No run of a decorated
    function builds more than one report, constructs more than one client,
    performs more than one sink operation or reads the clock more than
    once: nothing is tried again, whether the dispatch succeeds or fails.
    When the wrapped function raises an exception that the except clause
    catches, exactly one report is built if the callable has a
    [__name__], and exactly one client is constructed if, in addition, the
    extra keyword arguments have no key [report]. *)
Theorem decorated_reports_once (m : mode) (w : world) (o : options)
    (func : callable) (args : list py_value) (kwargs : gmap string py_value) :
  let tr := snd (run w (decorated m o func args kwargs) []) in
  ((length (List.filter is_report_op tr) <= 1)%nat
   /\ (length (List.filter is_client_op tr) <= 1)%nat
   /\ (length (List.filter is_sink_op tr) <= 1)%nat
   /\ (length (List.filter is_clock_op tr) <= 1)%nat)
  /\ (forall (e : exn) (name : string),
        call w m func args kwargs = Raise e ->
        except_clause (py_or (exceptions o) (ExcClass Exception)) e = Caught ->
        __name__ func = Some name ->
        length (List.filter is_report_op tr) = 1%nat
        /\ (params o !! "report" = None ->
            length (List.filter is_client_op tr) = 1%nat)).
Proof.
  intros tr. subst tr. split.
  - run_cases m w; cbn; repeat split; lia.
  - intros e name Hcall Hflt Hname.
    rewrite run_decorated, Hcall. cbn zeta. rewrite Hflt, Hname.
    destruct (params o !! "report") as [v |].
    + split; [| discriminate]. destruct m; reflexivity.
    + rewrite run_dispatcher. cbn zeta.
      destruct (new_client w _ _ _) as [b | d];
        [unfold sink_call, before_sink, filename_events;
         destruct (attach _) as [att |];
           [destruct (default PyNone _) |] |];
        destruct m; cbn; split; reflexivity.
Qed.

(** ** Further properties of the dispatchers *)

(** X5: a dispatch reads the clock exactly when it needs a file name:
    the client was constructed, the report has an attachment, and the
    [filename] keyword argument is missing or [None].  Inline reports and
    dispatches with an explicit file name never read the clock. *)
Theorem clock_read_iff_name_needed (m : mode) (w : world) (r : Report)
    (tok : option string) (chat : option chat_id_arg)
    (kwargs : gmap string py_value) :
  Exists (fun ev => is_clock_op ev = true)
    (snd (run w (dispatcher m r tok chat kwargs) []))
  <-> ((exists b : bot, new_client w (client_of m) tok chat = Return b)
       /\ attach r <> None
       /\ (kwargs !! "filename" = None \/ kwargs !! "filename" = Some PyNone)).
Proof.
  rewrite run_dispatcher. cbn zeta.
  destruct (new_client w (client_of m) tok chat) as [b | d]; cbn [snd].
  - unfold before_sink, filename_events, sink_call.
    destruct (attach r) as [att |];
      [destruct (kwargs !! "filename") as [[] |] |];
      destruct m; cbn -[resolved_filename];
      rewrite ?Exists_cons, ?Exists_nil;
      intuition (try discriminate; try congruence; eauto).
  - rewrite Exists_cons, Exists_nil. cbn [is_clock_op].
    split; [intros [? | []]; discriminate |].
    intros [[b Hb] _]. discriminate.
Qed.

(** X6: for a report with an attachment, passing [filename=None] is the
    same as passing no [filename] at all: the dispatch makes the same
    calls, gives the sink the same generated name and the same remaining
    keyword arguments, and ends the same way. *)
Theorem filename_None_is_no_filename (m : mode) (w : world) (r : Report)
    (tok : option string) (chat : option chat_id_arg)
    (kwargs : gmap string py_value) :
  attach r <> None ->
  run w (dispatcher m r tok chat (<["filename" := PyNone]> kwargs)) [] =
  run w (dispatcher m r tok chat (delete "filename" kwargs)) [].
Proof.
  intros Hatt. rewrite !run_dispatcher. cbn zeta.
  unfold sink_result, sink_call, before_sink, filename_events,
    resolved_filename.
  destruct (attach r) as [att |]; [| congruence].
  rewrite lookup_insert_eq, lookup_delete_eq, delete_insert_eq,
    delete_delete_eq.
  reflexivity.
Qed.

(** X7: the delivery flags reach the sink as they were given.  When the
    client is constructed, the last call of the dispatch is the sink
    operation, and every keyword argument other than [filename] is passed
    to it with its value.  For a report with an attachment the [filename]
    key is taken out; for an inline report the keyword arguments are
    passed whole, a [filename] among them included. *)
Theorem sink_receives_flags (m : mode) (w : world) (r : Report)
    (tok : option string) (chat : option chat_id_arg)
    (kwargs : gmap string py_value) (b : bot) :
  new_client w (client_of m) tok chat = Return b ->
  exists (ev : event) (given : gmap string py_value),
    last (snd (run w (dispatcher m r tok chat kwargs) [])) = Some ev
    /\ is_sink_op ev = true
    /\ ev_kwargs ev = Some given
    /\ (forall key : string,
          key <> "filename" -> given !! key = kwargs !! key)
    /\ (attach r <> None -> given !! "filename" = None)
    /\ (attach r = None -> given = kwargs).
Proof.
  intros Hclient. rewrite run_dispatcher, Hclient. cbn zeta. cbn [snd].
  exists (sink_call m w b r kwargs).
  exists (match attach r with
          | Some _ => delete "filename" kwargs
          | None => kwargs
          end).
  split.
  { change (?x :: ?l ++ [?y]) with ((x :: l) ++ [y]). apply last_snoc. }
  split; [apply is_sink_op_sink_call |].
  unfold sink_call. destruct (attach r) as [att |]; cbn [ev_kwargs].
  - split; [reflexivity |].
    split; [intros key Hkey; now apply lookup_delete_ne |].
    split; [intros _; apply lookup_delete_eq | discriminate].
  - split; [reflexivity |].
    split; [reflexivity |]. split; [congruence | reflexivity].
Qed.

(** ** Further properties of the awaited variant *)

(** X8: the awaited variant keeps its blocking steps off the event loop:
    in every run, each construction of a report and each reading of the
    clock comes directly after a hand-over to the executor. *)
Theorem async_blocking_steps_are_offloaded (w : world) (o : options)
    (func : callable) (args : list py_value) (kwargs : gmap string py_value) :
  offload_guarded false
    (snd (run w (async_telegram_reporter o func args kwargs) [])) = true.
Proof.
  change (async_telegram_reporter o func args kwargs)
    with (decorated Awaited o func args kwargs).
  rewrite run_decorated. cbn zeta.
  destruct (call w Awaited func args kwargs) as [v | e]; [reflexivity |].
  destruct (except_clause _ e); try reflexivity.
  destruct (__name__ func) as [name |]; [| reflexivity].
  destruct (params o !! "report"); [reflexivity |].
  rewrite run_dispatcher. cbn zeta.
  destruct (new_client w _ _ _) as [b | d]; [| reflexivity].
  unfold sink_call, before_sink, filename_events.
  destruct (attach _) as [att |];
    [destruct (default PyNone _) |]; reflexivity.
Qed.


(** ** Further properties of the filter *)

Lemma issubclass_BaseException (c : exc_class) :
  issubclass c BaseException = true.
Proof.
  unfold issubclass. apply bool_decide_eq_true.
  induction c; simpl; try (repeat constructor; fail).
  apply list_elem_of_further. assumption.
Qed.

(** X10: the filter [BaseException] is the one that catches everything:
    given [exceptions=BaseException], every exception the wrapped function
    raises, [SystemExit] and [KeyboardInterrupt] included, is caught by the
    except clause and never passes through as it came.  For a callable
    with a [__name__] and extra keyword arguments without the key
    [report], the report is built from it and handed to the dispatcher,
    whose calls follow. *)
Theorem BaseException_filter_catches_all (m : mode) (w : world)
    (o : options) (func : callable) (args : list py_value)
    (kwargs : gmap string py_value) (e : exn) :
  exceptions o = ExcClass BaseException ->
  call w m func args kwargs = Raise e ->
  except_clause (py_or (exceptions o) (ExcClass Exception)) e = Caught
  /\ (forall name : string,
        __name__ func = Some name ->
        params o !! "report" = None ->
        let r := Report_init (format_exc e) (Some name)
                   (header o) (as_attached o) in
        snd (run w (decorated m o func args kwargs) []) =
          Ev (Invoke m func args kwargs) (Raise e) :: offloaded m ++
          Ev (NewReport (format_exc e) (Some name)
                (header o) (as_attached o)) (Return r) ::
          snd (run w (dispatcher m r (token o) (chat_id o) (params o)) []))
  /\ (__name__ func = None ->
      run w (decorated m o func args kwargs) [] =
        (Raise (no_name_error func),
         [Ev (Invoke m func args kwargs) (Raise e)])).
Proof.
  intros Hexc Hcall.
  assert (except_clause (py_or (exceptions o) (ExcClass Exception)) e
          = Caught) as Hflt.
  { rewrite Hexc. unfold py_or. cbn. unfold isinstance.
    now rewrite issubclass_BaseException. }
  split; [exact Hflt |]. split.
  - intros name Hname Hparams r.
    rewrite run_decorated, Hcall. cbn zeta.
    rewrite Hflt, Hname, Hparams. reflexivity.
  - intros Hname. rewrite run_decorated, Hcall. cbn zeta.
    rewrite Hflt, Hname. reflexivity.
Qed.

(** ** What a run tells about the crash *)

(** X12: a decorated function never turns a crash into a return.  It
    returns a value exactly when the wrapped function returns one, and then
    the same value; whenever the wrapped function raises, the decorated
    function raises too, whatever the filter and whatever the dispatch
    does. *)
Theorem decorated_never_swallows (m : mode) (w : world) (o : options)
    (func : callable) (args : list py_value) (kwargs : gmap string py_value)
    (v : py_value) :
  fst (run w (decorated m o func args kwargs) []) = Return v
  <-> call w m func args kwargs = Return v.
Proof.
  rewrite run_decorated. cbn zeta.
  destruct (call w m func args kwargs) as [v' | e]; [reflexivity |].
  destruct (except_clause _ e); cbn [fst];
    [| split; discriminate | split; discriminate].
  destruct (__name__ func) as [name |]; [| split; discriminate].
  destruct (params o !! "report"); [split; discriminate |].
  cbn [fst].
  destruct (fst (run w (dispatcher m _ _ _ _) [])) as [[] | d];
    split; discriminate.
Qed.

(** X13: the record of a run tells how far the handling of a crash got.
    A report is built exactly when the wrapped function raised an exception
    that the except clause catches and the callable has a [__name__]; a
    client is constructed exactly when, in addition, the extra keyword
    arguments have no key [report]; a sink operation is performed exactly
    when, in addition, the client could be constructed. *)
Theorem report_built_iff_caught (m : mode) (w : world) (o : options)
    (func : callable) (args : list py_value) (kwargs : gmap string py_value) :
  let tr := snd (run w (decorated m o func args kwargs) []) in
  let caught :=
    exists e : exn,
      call w m func args kwargs = Raise e
      /\ except_clause (py_or (exceptions o) (ExcClass Exception)) e = Caught
  in
  let named := exists name : string, __name__ func = Some name in
  let bound := params o !! "report" = None in
  (Exists (fun ev => is_report_op ev = true) tr <-> caught /\ named)
  /\ (Exists (fun ev => is_client_op ev = true) tr <->
      caught /\ named /\ bound)
  /\ (Exists (fun ev => is_sink_op ev = true) tr <->
      caught /\ named /\ bound /\ exists b : bot,
        new_client w (client_of m) (token o) (chat_id o) = Return b).
Proof.
  intros tr caught named bound. subst tr caught named bound.
  rewrite run_decorated. cbn zeta.
  destruct (call w m func args kwargs) as [v | e].
  { cbn [snd]. rewrite !Exists_cons, !Exists_nil. cbn.
    split; [| split]; (split; [intros [H | []]; discriminate H |]);
      intros [(e & He & _) _]; discriminate He. }
  destruct (except_clause (py_or (exceptions o) (ExcClass Exception)) e)
    eqn:Hflt.
  2, 3: cbn [snd]; rewrite !Exists_cons, !Exists_nil; cbn;
    (split; [| split]); (split; [intros [H | []]; discriminate H |]);
    intros [(e' & He & Hc) _]; injection He as <-; congruence.
  assert (exists e' : exn,
            @Raise py_value e = Raise e'
            /\ except_clause (py_or (exceptions o) (ExcClass Exception)) e'
               = Caught) as Hcaught
    by (exists e; split; [reflexivity | exact Hflt]).
  destruct (__name__ func) as [name |].
  2: { cbn [snd]. rewrite !Exists_cons, !Exists_nil. cbn.
       split; [| split]; (split; [intros [H | []]; discriminate H |]);
         first [ intros (_ & [n Hn] & _) | intros (_ & [n Hn]) ];
         discriminate Hn. }
  assert (exists n : string, Some name = Some n) as Hnamed
    by (exists name; reflexivity).
  destruct (params o !! "report") as [x |].
  { cbn [snd]. split; [| split].
    - split; [intros _; split; assumption |]. intros _.
      apply Exists_cons. right. apply Exists_app. right.
      apply Exists_cons. left. reflexivity.
    - split; [| intros (_ & _ & H); discriminate H].
      destruct m; cbn; rewrite ?Exists_cons, ?Exists_nil; cbn;
        intuition discriminate.
    - split; [| intros (_ & _ & H & _); discriminate H].
      destruct m; cbn; rewrite ?Exists_cons, ?Exists_nil; cbn;
        intuition discriminate. }
  rewrite run_dispatcher. cbn zeta. cbn [snd].
  split; [| split].
  - split; [intros _; split; assumption |]. intros _.
    apply Exists_cons. right. apply Exists_app. right.
    apply Exists_cons. left. reflexivity.
  - split; [intros _; repeat split; assumption |]. intros _.
    apply Exists_cons. right. apply Exists_app. right.
    apply Exists_cons. right.
    destruct (new_client w _ _ _); apply Exists_cons; left; reflexivity.
  - destruct (new_client w (client_of m) (token o) (chat_id o)) as [b | d].
    + split.
      { intros _. split; [assumption |]. split; [assumption |].
        split; [reflexivity | exists b; reflexivity]. }
      intros _. cbn [snd].
      apply Exists_cons. right. apply Exists_app. right.
      apply Exists_cons. right. apply Exists_cons. right.
      apply Exists_app. right. apply Exists_cons. left.
      apply is_sink_op_sink_call.
    + split; [| intros (_ & _ & _ & [b Hb]); discriminate].
      cbn [snd]. rewrite Exists_cons, Exists_app, !Exists_cons, Exists_nil.
      destruct m; cbn; rewrite ?Exists_cons, ?Exists_nil; cbn;
        intuition discriminate.
Qed.

(** X14: the credentials given to the decorator are the ones the client
    is constructed with.  When the crash is intercepted, the callable has
    a [__name__] and the extra keyword arguments have no key [report], the
    only client of the run is constructed from the [token] and [chat_id]
    options as they are (absent ones stay absent), with the class of the
    variant.  Without a [__name__], or with a [report] key, no client is
    constructed at all. *)
Theorem client_gets_credentials (m : mode) (w : world) (o : options)
    (func : callable) (args : list py_value) (kwargs : gmap string py_value)
    (e : exn) :
  call w m func args kwargs = Raise e ->
  except_clause (py_or (exceptions o) (ExcClass Exception)) e = Caught ->
  List.filter is_client_op (snd (run w (decorated m o func args kwargs) [])) =
    match __name__ func, params o !! "report" with
    | Some _, None =>
        [Ev (NewClient (client_of m) (token o) (chat_id o))
            (new_client w (client_of m) (token o) (chat_id o))]
    | _, _ => []
    end.
Proof.
  intros Hcall Hflt.
  rewrite run_decorated, Hcall. cbn zeta. rewrite Hflt.
  destruct (__name__ func) as [name |]; [| reflexivity].
  destruct (params o !! "report"); [destruct m; reflexivity |].
  rewrite run_dispatcher. cbn zeta.
  destruct (new_client w _ _ _) as [b | d];
    [unfold sink_call, before_sink, filename_events;
     destruct (attach _) as [att |];
       [destruct (default PyNone _) |] |];
    destruct m; reflexivity.
Qed.

End Handlers.

(** ** Importing the package *)

Lemma import_names_returns (module : string) (ns names bound : list string) :
  Package.import_names module ns names = Return bound -> bound = names.
Proof.
  revert bound. induction names as [| n names IH]; intros bound; simpl.
  - congruence.
  - destruct (bool_decide (n ∈ ns)); [| discriminate].
    destruct (Package.import_names module ns names) as [l | e];
      [| discriminate].
    intros [= <-]. f_equal. now apply IH.
Qed.

Lemma import_names_raises (module : string) (ns names : list string) (e : exn) :
  Package.import_names module ns names = Raise e ->
  exc_type e = ImportError.
Proof.
  induction names as [| n names IH]; simpl; [discriminate |].
  destruct (bool_decide (n ∈ ns)).
  - destruct (Package.import_names module ns names) as [l | e'];
      [discriminate |].
    intros [= <-]. now apply IH.
  - intros [= <-]. reflexivity.
Qed.

(** A module body that runs to its end has bound its names in order. *)
Lemma exec_returns (load : string -> outcome (list string))
    (body : list Package.stmt) (bound ns : list string) :
  Package.exec load body bound = Return ns ->
  ns = bound ++ Package.binds body.
Proof.
  revert bound. induction body as [| st body IH]; intros bound; simpl.
  - intros [= <-]. unfold Package.binds. simpl. now rewrite app_nil_r.
  - unfold Package.binds in *. destruct st as [module | module names | name].
    + destruct (load module); [| discriminate].
      intros H. apply IH in H. simpl. now rewrite H, <- app_assoc.
    + destruct (load module) as [ns' |]; [| discriminate].
      destruct (Package.import_names module ns' names) as [l |] eqn:Hl;
        [| discriminate].
      apply import_names_returns in Hl. subst l.
      intros H. apply IH in H. simpl. now rewrite H, <- app_assoc.
    + intros H. apply IH in H. simpl. now rewrite H, <- app_assoc.
Qed.

(** A module body fails with an import error when its imports do. *)
Lemma exec_raises (load : string -> outcome (list string))
    (body : list Package.stmt) (bound : list string) (e : exn) :
  (forall module e', load module = Raise e' ->
     issubclass (exc_type e') ImportError = true) ->
  Package.exec load body bound = Raise e ->
  issubclass (exc_type e) ImportError = true.
Proof.
  intros Hload. revert bound.
  induction body as [| st body IH]; intros bound; simpl; [discriminate |].
  destruct st as [module | module names | name].
  - destruct (load module) as [ns' | e'] eqn:Hm; [apply IH |].
    intros [= <-]. eapply Hload, Hm.
  - destruct (load module) as [ns' | e'] eqn:Hm.
    + destruct (Package.import_names module ns' names) as [l | e'] eqn:Hl;
        [apply IH |].
      intros [= <-]. apply import_names_raises in Hl. now rewrite Hl.
    + intros [= <-]. eapply Hload, Hm.
  - apply IH.
Qed.

Lemma load_installed_raises (installed : string -> option (list string))
    (module : string) (e : exn) :
  Package.load_installed installed module = Raise e ->
  issubclass (exc_type e) ImportError = true.
Proof.
  unfold Package.load_installed. destruct (installed module); [discriminate |].
  intros [= <-]. reflexivity.
Qed.

Lemma load_handlers (installed : string -> option (list string)) :
  Package.load installed "easy_notifyer.handlers" =
  Package.exec (Package.load_installed installed) Package.handlers_py [].
Proof. reflexivity. Qed.

(** C10: importing the package raises an import error, whatever the other
    modules of the installation provide.  The handlers module binds no name
    [mailer_reporter], so when that module loads, the first statement of
    the package's [__init__] fails to import the name from it; and when it
    does not load, the import error of the missing module propagates. *)
Theorem import_package_raises (installed : string -> option (list string)) :
  ~ "mailer_reporter" ∈ Package.binds Package.handlers_py
  /\ exists e : exn,
       Package.import_package installed = Raise e
       /\ issubclass (exc_type e) ImportError = true
       /\ (forall ns : list string,
             Package.load installed "easy_notifyer.handlers" = Return ns ->
             e = Package.cannot_import "mailer_reporter"
                   "easy_notifyer.handlers").
Proof.
  split.
  - intros Hin.
    assert (bool_decide
              ("mailer_reporter" ∈ Package.binds Package.handlers_py) = true)
      as Hdec by (apply bool_decide_eq_true; exact Hin).
    vm_compute in Hdec. discriminate.
  - unfold Package.import_package, Package.init_py. cbn [Package.exec].
    destruct (Package.load installed "easy_notifyer.handlers") as [ns | e]
      eqn:Hload.
    + pose proof Hload as Hns. rewrite load_handlers in Hns.
      apply exec_returns in Hns. subst ns.
      exists (Package.cannot_import "mailer_reporter" "easy_notifyer.handlers").
      split; [reflexivity |]. split; [reflexivity |]. reflexivity.
    + exists e. split; [reflexivity |]. split; [| discriminate].
      rewrite load_handlers in Hload.
      eapply exec_raises; [| exact Hload].
      intros module e'. apply load_installed_raises.
Qed.

(** ** The setup script *)

Lemma getitem_In (d : list (string * list string)) (key : string)
    (v : list string) :
  Setup.getitem d key = Return v -> In (key, v) d.
Proof.
  induction d as [| [k x] d IH]; simpl; [discriminate |].
  destruct (String.eqb k key) eqn:Hk.
  - apply String.eqb_eq in Hk. intros [= ->]. left. now subst.
  - intros H. right. now apply IH.
Qed.

Lemma getitem_raises (d : list (string * list string)) (key : string)
    (e : exn) :
  Setup.getitem d key = Raise e ->
  e = Setup.key_error key /\ ~ In key (map fst d).
Proof.
  induction d as [| [k x] d IH]; simpl.
  - intros [= <-]. split; [reflexivity | intros []].
  - destruct (String.eqb k key) eqn:Hk; [discriminate |].
    apply String.eqb_neq in Hk. intros H. apply IH in H as [-> Hnot].
    split; [reflexivity |]. intros [Heq | Hin]; [congruence | tauto].
Qed.

Lemma chain_values_In (extras : list (string * list string)) (r : string) :
  In r (Setup.chain_values extras) <->
  exists (k : string) (reqs : list string), In (k, reqs) extras /\ In r reqs.
Proof.
  unfold Setup.chain_values. rewrite in_concat. split.
  - intros (reqs & Hreqs & Hr). apply in_map_iff in Hreqs.
    destruct Hreqs as ([k reqs'] & Heq & Hin). simpl in Heq. subst reqs'.
    exists k, reqs. split; assumption.
  - intros (k & reqs & Hin & Hr). exists reqs. split; [| assumption].
    apply in_map_iff. exists (k, reqs). split; [reflexivity | assumption].
Qed.

Lemma chain_values_length (extras : list (string * list string)) :
  length (Setup.chain_values extras) =
  list_sum (map (fun kv => length (snd kv)) extras).
Proof.
  unfold Setup.chain_values.
  induction extras as [| [k reqs] extras IH]; simpl; [reflexivity |].
  rewrite length_app. now f_equal.
Qed.

(** X11: the extra [all] of the setup script is the union of the extras
    of the table: a requirement is listed under [all] exactly when some
    extra of the table lists it, so everything under [telegram] and under
    [dev] is under [all]; nothing is merged (the list is as long as all
    the lists together).  When the table lacks [telegram] or [dev], the
    script fails with the [KeyError] of that key. *)
Theorem all_extra_is_union (extras : list (string * list string)) :
  (forall r : string,
     In r (Setup.chain_values extras) <->
     exists (k : string) (reqs : list string), In (k, reqs) extras /\ In r reqs)
  /\ length (Setup.chain_values extras) =
     list_sum (map (fun kv => length (snd kv)) extras)
  /\ match Setup.extras_require extras with
     | Return table =>
         exists telegram dev : list string,
           table = [ ("telegram", telegram);
                     ("dev", dev);
                     ("all", Setup.chain_values extras) ]
           /\ In ("telegram", telegram) extras
           /\ In ("dev", dev) extras
           /\ incl telegram (Setup.chain_values extras)
           /\ incl dev (Setup.chain_values extras)
     | Raise e =>
         (e = Setup.key_error "telegram"
          /\ ~ In "telegram" (map fst extras))
         \/ (e = Setup.key_error "dev" /\ ~ In "dev" (map fst extras))
     end.
Proof.
  split; [apply chain_values_In |].
  split; [apply chain_values_length |].
  unfold Setup.extras_require.
  destruct (Setup.getitem extras "telegram") as [t | e] eqn:Ht.
  - destruct (Setup.getitem extras "dev") as [d | e] eqn:Hd.
    + apply getitem_In in Ht, Hd. exists t, d.
      split; [reflexivity |]. split; [assumption |].
      split; [assumption |].
      split; intros r Hr; apply chain_values_In; eauto.
    + right. now apply getitem_raises.
  - left. now apply getitem_raises.
Qed.

Example extras_require_EXTRAS :
  Setup.extras_require Setup.EXTRAS =
  Return [ ("telegram", ["httpx"]);
           ("dev", ["pytest"; "pylint"; "flake8"]);
           ("all", ["httpx"; "pytest"; "pylint"; "flake8"]) ].
Proof. reflexivity. Qed.

(** * Instances *)

(** The default pattern on a concrete clock reading. *)
Example get_filename_default :
  fst (run world_ok
         (_get_filename strftime_model default_dt_format PyNone) []) =
  Return (PyStr "2021-03-04 05_06_07.txt").
Proof. vm_compute. reflexivity. Qed.

Example get_filename_explicit :
  run world_ok
    (_get_filename strftime_model default_dt_format (PyStr "crash.log")) [] =
  (Return (PyStr "crash.log"), []).
Proof. reflexivity. Qed.

Lemma decorated_returns_value_witness :
  call world_returns Blocking func_f [] ∅ = Return (PyInt 7)
  /\ run world_returns
       (telegram_reporter format_exc_model strftime_model default_dt_format
          default_options func_f [] ∅) []
     = (Return (PyInt 7), [Ev (Invoke Blocking func_f [] ∅) (Return (PyInt 7))]).
Proof.
  split; [reflexivity |].
  apply (decorated_returns_value
           format_exc_model strftime_model default_dt_format
           Blocking world_returns default_options func_f [] ∅ (PyInt 7)).
  reflexivity.
Defined.

(** Filter [KeyError], exception [ValueError]. *)
Lemma decorated_passes_unmatched_witness :
  let o := with_exceptions (ExcClass KeyError) default_options in
  except_clause (py_or (exceptions o) (ExcClass Exception)) boom = NotCaught
  /\ run world_ok
       (async_telegram_reporter format_exc_model strftime_model
          default_dt_format o func_f [] ∅) []
     = (Raise boom, [Ev (Invoke Awaited func_f [] ∅) (Raise boom)]).
Proof.
  split; [reflexivity |].
  apply (decorated_passes_unmatched
           format_exc_model strftime_model default_dt_format
           Awaited world_ok
           (with_exceptions (ExcClass KeyError) default_options) func_f [] ∅ boom);
    reflexivity.
Defined.





Lemma async_reraise_follows_dispatch_witness :
  let r := Report_init (format_exc_model boom) (Some "f") None false in
  let result :=
    run world_ok
      (async_telegram_reporter format_exc_model strftime_model
         default_dt_format default_options func_f [] ∅) [] in
  exists (before : list event) (last_call : event),
    snd result = before ++ [last_call]
    /\ Exists (fun ev => is_report_op ev = true) before
    /\ is_transport_op last_call = true
    /\ match ev_raised last_call with
       | None =>
           (exists b : bot,
              new_client world_ok TelegramAsync None None = Return b
              /\ last_call =
                 sink_call strftime_model default_dt_format
                   Awaited world_ok b r ∅)
           /\ is_sink_op last_call = true
           /\ fst result = Raise boom
       | Some d => fst result = Raise d
       end.
Proof.
  exact (async_reraise_follows_dispatch
           format_exc_model strftime_model default_dt_format
           world_ok default_options func_f [] ∅ boom eq_refl eq_refl).
Defined.



Lemma dispatch_performs_one_sink_operation_witness :
  let r := Report_init (format_exc_model boom) (Some "f") None true in
  new_client world_ok Telegram None None = Return (a_bot Telegram)
  /\ List.filter is_sink_op
       (snd (run world_ok
               (_report_handler strftime_model default_dt_format r
                  None None ∅) []))
     = [Ev (SendAttach Blocking (a_bot Telegram) (report r)
              (format_exc_model boom) (PyStr "2021-03-04 05_06_07.txt") ∅)
           (Return tt)].
Proof.
  split; [reflexivity |].
  etransitivity;
    [exact (proj1 (dispatch_performs_one_sink_operation
                     strftime_model default_dt_format Blocking world_ok
                     (Report_init (format_exc_model boom) (Some "f") None true)
                     None None ∅ (a_bot Telegram) eq_refl)) |].
  vm_compute. reflexivity.
Defined.

(** C6, as stated, fails: when the client cannot be constructed the
    dispatch performs no sink operation at all, in either variant. *)
Lemma dispatch_without_client_sends_nothing :
  let r := Report_init (format_exc_model boom) (Some "f") None false in
  run world_no_token
    (_report_handler strftime_model default_dt_format r None None ∅) []
  = (Raise config_error,
     [Ev (NewClient Telegram None None) (Raise config_error)])
  /\ List.filter is_sink_op
       (snd (run world_no_token
               (_report_handler strftime_model default_dt_format r
                  None None ∅) [])) = []
  /\ List.filter is_sink_op
       (snd (run world_no_token
               (_async_report_handler strftime_model default_dt_format r
                  None None ∅) [])) = [].
Proof. repeat split; reflexivity. Qed.

(** An empty tuple is replaced by [Exception]. *)
Lemma falsy_exceptions_mean_Exception_witness :
  let o := with_exceptions (ExcTuple []) default_options in
  exceptions_truthy (exceptions o) = false
  /\ telegram_reporter format_exc_model strftime_model default_dt_format
       o func_f [] ∅
     = telegram_reporter format_exc_model strftime_model default_dt_format
         (with_exceptions (ExcClass Exception) o) func_f [] ∅.
Proof.
  split; [reflexivity |].
  exact (proj1 (falsy_exceptions_mean_Exception
                  format_exc_model strftime_model default_dt_format
                  (with_exceptions (ExcTuple []) default_options))
           eq_refl Blocking func_f [] ∅).
Defined.

Example empty_tuple_still_reports :
  let o := with_exceptions (ExcTuple []) default_options in
  List.filter is_sink_op
    (snd (run world_ok
            (telegram_reporter format_exc_model strftime_model
               default_dt_format o func_f [] ∅) []))
  = [Ev (SendMessage Blocking (a_bot Telegram)
           (report (Report_init (format_exc_model boom) (Some "f") None false))
           ∅) (Return tt)].
Proof. vm_compute. reflexivity. Qed.

Example import_complete_installation :
  Package.import_package Package.complete_installation =
  Raise (Package.cannot_import "mailer_reporter" "easy_notifyer.handlers").
Proof. vm_compute. reflexivity. Qed.

(** A string in place of a class. *)
Lemma bad_filter_raises_TypeError_witness :
  let o := with_exceptions (ExcOther (PyStr "ValueError")) default_options in
  py_truthy (PyStr "ValueError") = true
  /\ run world_ok
       (telegram_reporter format_exc_model strftime_model default_dt_format
          o func_f [] ∅) []
     = (Raise bad_filter_error,
        [Ev (Invoke Blocking func_f [] ∅) (Raise boom)]).
Proof.
  split; [reflexivity |].
  exact (bad_filter_raises_TypeError
           format_exc_model strftime_model default_dt_format
           Blocking world_ok
           (with_exceptions (ExcOther (PyStr "ValueError")) default_options)
           func_f [] ∅ (PyStr "ValueError") boom eq_refl eq_refl eq_refl).
Defined.

(** A failing sink is not tried again. *)
Lemma decorated_reports_once_witness :
  let tr :=
    snd (run world_sink_down
           (async_telegram_reporter format_exc_model strftime_model
              default_dt_format default_options func_f [] ∅) []) in
  length (List.filter is_report_op tr) = 1%nat
  /\ length (List.filter is_client_op tr) = 1%nat
  /\ (length (List.filter is_sink_op tr) <= 1)%nat.
Proof.
  pose proof (decorated_reports_once
                format_exc_model strftime_model default_dt_format
                Awaited world_sink_down default_options func_f [] ∅)
    as [(_ & _ & Hsink & _) Hexact].
  destruct (Hexact boom "f" eq_refl eq_refl eq_refl) as [Hreport Hclient].
  split; [exact Hreport |].
  split; [exact (Hclient eq_refl) | exact Hsink].
Defined.

Lemma filename_None_is_no_filename_witness :
  let r := Report_init (format_exc_model boom) (Some "f") None true in
  let flags : gmap string py_value :=
    <["disable_notification" := PyBool true]> ∅ in
  attach r <> None
  /\ run world_ok
       (_report_handler strftime_model default_dt_format r None None
          (<["filename" := PyNone]> flags)) []
     = run world_ok
         (_report_handler strftime_model default_dt_format r None None
            (delete "filename" flags)) [].
Proof.
  split; [discriminate |].
  apply (filename_None_is_no_filename strftime_model default_dt_format
           Blocking world_ok
           (Report_init (format_exc_model boom) (Some "f") None true)
           None None (<["disable_notification" := PyBool true]> ∅)).
  discriminate.
Defined.

Lemma sink_receives_flags_witness :
  let r := Report_init (format_exc_model boom) (Some "f") None true in
  let flags : gmap string py_value :=
    <["disable_notification" := PyBool true]>
      (<["filename" := PyStr "crash.log"]> ∅) in
  exists (ev : event) (given : gmap string py_value),
    last (snd (run world_ok
                 (_async_report_handler strftime_model default_dt_format
                    r None None flags) [])) = Some ev
    /\ is_sink_op ev = true
    /\ ev_kwargs ev = Some given
    /\ (forall key : string,
          key <> "filename" -> given !! key = flags !! key)
    /\ (attach r <> None -> given !! "filename" = None)
    /\ (attach r = None -> given = flags).
Proof.
  exact (sink_receives_flags strftime_model default_dt_format
           Awaited world_ok
           (Report_init (format_exc_model boom) (Some "f") None true)
           None None
           (<["disable_notification" := PyBool true]>
              (<["filename" := PyStr "crash.log"]> ∅))
           (a_bot TelegramAsync) eq_refl).
Defined.


(** With a [report] key among the extra keyword arguments the two
    variants raise [TypeError]s that name different functions. *)
Example variants_name_their_own_dispatcher :
  fst (run world_ok
         (telegram_reporter format_exc_model strftime_model default_dt_format
            (with_report_key default_options) func_f [] ∅) [])
  = Raise (multiple_values_error
             "easy_notifyer.handlers._report_handler" "report")
  /\ fst (run world_ok
            (async_telegram_reporter format_exc_model strftime_model
               default_dt_format (with_report_key default_options)
               func_f [] ∅) [])
     = Raise (multiple_values_error
                "easy_notifyer.handlers._async_report_handler" "report").
Proof. split; vm_compute; reflexivity. Qed.

(** A [report] key stops the run once the report is built: no client is
    constructed and nothing is sent. *)
Example report_key_stops_before_client :
  run world_ok
    (telegram_reporter format_exc_model strftime_model default_dt_format
       (with_report_key default_options) func_f [] ∅) []
  = (Raise (multiple_values_error
              "easy_notifyer.handlers._report_handler" "report"),
     [Ev (Invoke Blocking func_f [] ∅) (Raise boom);
      Ev (NewReport (format_exc_model boom) (Some "f") None false)
         (Return (Report_init (format_exc_model boom) (Some "f") None false))]).
Proof. vm_compute. reflexivity. Qed.

(** A callable without [__name__] stops the run before a report is
    built. *)
Example partial_stops_before_report :
  run world_ok
    (telegram_reporter format_exc_model strftime_model default_dt_format
       default_options partial_f [] ∅) []
  = (Raise (no_name_error partial_f),
     [Ev (Invoke Blocking partial_f [] ∅) (Raise boom)])
  /\ exc_msg (no_name_error partial_f)
     = "'functools.partial' object has no attribute '__name__'".
Proof. split; vm_compute; reflexivity. Qed.

(** [SystemExit] under the filter [BaseException]. *)
Lemma BaseException_filter_catches_all_witness :
  let o := with_exceptions (ExcClass BaseException) default_options in
  except_clause (py_or (exceptions o) (ExcClass Exception)) exit_1 = Caught.
Proof.
  exact (proj1 (BaseException_filter_catches_all
                  format_exc_model strftime_model default_dt_format
                  Blocking world_exit
                  (with_exceptions (ExcClass BaseException) default_options)
                  func_f [] ∅ exit_1 eq_refl eq_refl)).
Defined.

(** A token and a chat id given to the decorator. *)
Lemma client_gets_credentials_witness :
  let o :=
    {| token := Some "123:abc"; chat_id := Some (ChatId 42);
       exceptions := ExcClass ValueError; header := None;
       as_attached := true; params := ∅ |} in
  List.filter is_client_op
    (snd (run world_ok
            (telegram_reporter format_exc_model strftime_model
               default_dt_format o func_f [] ∅) []))
  = [Ev (NewClient Telegram (Some "123:abc") (Some (ChatId 42)))
        (Return (a_bot Telegram))].
Proof.
  exact (client_gets_credentials
           format_exc_model strftime_model default_dt_format
           Blocking world_ok
           {| token := Some "123:abc"; chat_id := Some (ChatId 42);
              exceptions := ExcClass ValueError; header := None;
              as_attached := true; params := ∅ |}
           func_f [] ∅ boom eq_refl eq_refl).
Defined.
